(** * openssl_csr: the reconciliation of a CSR file with its desired specification

    A shallow embedding of [plugins/modules/openssl_csr.py]: the class
    [CertificateSigningRequestModule] (its methods [generate], [remove] and
    [dump]) and the entry point [main], over an explicit model of the file
    system the module acts on and of the cryptographic backend it calls. *)

From Stdlib Require Import Ascii String.
From stdpp Require Import gmap strings list fin_maps.

Local Open Scope string_scope.

(** ** Python values of the result record *)

(** The values stored in the dictionaries handed to [exit_json] and
    [fail_json]. *)
Inductive pyval : Type :=
| PNone
| PBool (b : bool)
| PStr (s : string)
| PDict (d : gmap string string).

(** Python truthiness of [self.backup_file], which is [None] or a [str]. *)
Definition truthy (v : option string) : bool :=
  match v with
  | None => false
  | Some s => negb (String.eqb s "")
  end.

(** ** The file system *)

(** Ownership and permission bits of a file, the attributes that the common
    file arguments (owner, group, mode) address. *)
Record Attrs : Type := mkAttrs {
  owner : string;
  group : string;
  mode : N
}.

Record File : Type := mkFile {
  data : string;
  attrs : Attrs
}.

(** The file arguments of the module ([module.load_file_common_arguments]);
    an argument left out is [None] and asks for nothing. *)
Record FileArgs : Type := mkFileArgs {
  fa_owner : option string;
  fa_group : option string;
  fa_mode : option N
}.

(** What the run does to its surroundings, in the order it does it. *)
Inductive Event : Type :=
| EvSelectBackend
| EvLoad (p : string)
| EvCompare
| EvBuild
| EvBackup (p dest : string)
| EvWrite (p : string)
| EvRemove (p : string)
| EvChattr (p : string).

(** Conditions of the environment that make an I/O operation fail. *)
Record Faults : Type := mkFaults {
  read_denied : bool;
  backup_fails : bool;
  write_fails : bool;
  remove_fails : bool
}.

Record World : Type := mkWorld {
  files : gmap string File;      (* regular files, by path *)
  dirs : gset string;            (* directories *)
  faults : Faults;
  new_file_attrs : Attrs;        (* attributes a newly created file gets *)
  backup_stamp : string;         (* what a backup made now is stamped with *)
  trace : list Event
}.

Definition set_files (fs : gmap string File) (w : World) : World :=
  mkWorld fs (dirs w) (faults w) (new_file_attrs w) (backup_stamp w) (trace w).

Definition log_event (e : Event) (w : World) : World :=
  mkWorld (files w) (dirs w) (faults w) (new_file_attrs w) (backup_stamp w)
          (trace w ++ [e]).

(** [os.path.isdir] and [os.path.exists]. *)
Definition isdir (w : World) (p : string) : bool := bool_decide (p ∈ dirs w).

Definition path_exists (w : World) (p : string) : bool :=
  bool_decide (is_Some (files w !! p)) || isdir w p.

(** ** Results and the monad of a run *)

(** The error conditions a backend signals (section 4.3). *)
Inductive BackendError : Type :=
| InvalidSpecification (msg : string)
| SigningKeyUnavailable (msg : string)
| UnsupportedOperation (msg : string).

(** The exceptions of class [OpenSSLObjectError] that reach [main]: those the
    backend raises, and the [OSError] that [OpenSSLObject.remove] wraps. *)
Inductive OpenSSLObjectError : Type :=
| BackendFailure (e : BackendError)
| RemoveFailure (msg : string).

(** [to_native(exc)]: the message of the exception. *)
Definition to_native (exc : OpenSSLObjectError) : string :=
  match exc with
  | BackendFailure (InvalidSpecification msg) => msg
  | BackendFailure (SigningKeyUnavailable msg) => msg
  | BackendFailure (UnsupportedOperation msg) => msg
  | RemoveFailure msg => msg
  end.

(** A call returns, raises [OpenSSLObjectError], or ends the run: through
    [module.fail_json], which raises [SystemExit], or through an exception
    that the module does not catch. *)
Inductive Res (A : Type) : Type :=
| Ok (a : A)
| Raise (exc : OpenSSLObjectError)
| Fail (kw : gmap string pyval).
Arguments Ok {A} a.
Arguments Raise {A} exc.
Arguments Fail {A} kw.

Definition M (A : Type) : Type := World -> Res A * World.

Definition ret {A} (a : A) : M A := fun w => (Ok a, w).

Definition bind {A B} (m : M A) (k : A -> M B) : M B :=
  fun w =>
    match m w with
    | (Ok a, w') => k a w'
    | (Raise exc, w') => (Raise exc, w')
    | (Fail kw, w') => (Fail kw, w')
    end.

Definition raise {A} (exc : OpenSSLObjectError) : M A := fun w => (Raise exc, w).
Definition fail_json {A} (kw : gmap string pyval) : M A := fun w => (Fail kw, w).
Definition get_world : M World := fun w => (Ok w, w).
Definition modify (f : World -> World) : M unit := fun w => (Ok tt, f w).
Definition emit (e : Event) : M unit := modify (log_event e).

Declare Scope run_scope.
Delimit Scope run_scope with run.
Notation "x <- c1 ;; c2" := (bind c1 (fun x => c2))
  (at level 100, c1 at next level, right associativity) : run_scope.
Notation "c1 ;;; c2" := (bind c1 (fun _ => c2))
  (at level 100, right associativity) : run_scope.
Local Open Scope run_scope.

(** ** [os.path.dirname] *)

Definition sep : ascii := "/"%char.

Definition is_sep (c : ascii) : bool := Ascii.eqb c sep.

Fixpoint drop_while {A} (f : A -> bool) (l : list A) : list A :=
  match l with
  | [] => []
  | x :: l' => if f x then drop_while f l' else l
  end.

(** [posixpath.dirname]: the part of [p] up to its last separator, with the
    trailing separators stripped unless it consists of separators only. *)
Definition dirname (p : string) : string :=
  let rhead := drop_while (fun c => negb (is_sep c)) (reverse (list_ascii_of_string p)) in
  let rhead' := if forallb is_sep rhead then rhead else drop_while is_sep rhead in
  string_of_list_ascii (reverse rhead').

Example dirname_abs : dirname "/etc/ssl/csr/www.ansible.com.csr" = "/etc/ssl/csr".
Proof. reflexivity. Qed.

Example dirname_bare : dirname "www.ansible.com.csr" = "".
Proof. reflexivity. Qed.

Example dirname_root : dirname "/www.csr" = "/".
Proof. reflexivity. Qed.

Example dirname_slashes : dirname "a//b" = "a".
Proof. reflexivity. Qed.

(** ** The artifact store *)

Definition msg_kw (msg : string) : gmap string pyval := {[ "msg" := PStr msg ]}.

(** Modelled from the spec: [load_file_if_exists] of [module_utils/io.py],
    which is not among the sources.  Section 4.2, [load]: it never fails on a
    missing path, which is treated as absent, and fails with an I/O error only
    on a path that is present but unreadable (permission denied, or a
    directory). *)
Definition load_file_if_exists (p : string) : M (option string) :=
  emit (EvLoad p);;;
  w <- get_world;;
  match files w !! p with
  | Some f =>
      if read_denied (faults w)
      then fail_json (msg_kw ("Error while loading " +:+ p))
      else ret (Some (data f))
  | None =>
      if isdir w p
      then fail_json (msg_kw ("Error while loading " +:+ p))
      else ret None
  end.

(** The name of a backup of [p]: the path with a stamp appended, as in the
    sample of the module's [backup_file] return value,
    [/path/to/www.ansible.com.csr.2019-03-09@11:22~]. *)
Definition backup_dest (w : World) (p : string) : string :=
  p +:+ "." +:+ backup_stamp w +:+ "~".

(** Modelled from the spec: [module.backup_local].  Section 4.2, [backup]: it
    copies the current bytes to a sibling name that embeds a timestamp, and is
    a no-op that returns nothing (the empty string) if the source path does not
    exist; section 7, [BackupFailure]: a backup that cannot be made is fatal. *)
Definition backup_local (p : string) : M string :=
  w <- get_world;;
  match files w !! p with
  | Some f =>
      if backup_fails (faults w)
      then fail_json (msg_kw ("Could not make backup of " +:+ p))
      else
        modify (set_files (<[backup_dest w p := f]> (files w)));;;
        emit (EvBackup p (backup_dest w p));;;
        ret (backup_dest w p)
  | None => ret ""
  end.

(** Modelled from the spec: [write_file] of [module_utils/io.py], which is not
    among the sources.  Section 4.2, [write]: the new bytes replace the file at
    the path in one step; section 7, [IOFailure]: a failed write is fatal.  A
    file that is replaced keeps its attributes, a new one gets those of the
    environment. *)
Definition write_file (p : string) (content : string) : M unit :=
  w <- get_world;;
  if write_fails (faults w)
  then fail_json (msg_kw "Error while writing result")
  else
    let a := match files w !! p with
             | Some f => attrs f
             | None => new_file_attrs w
             end in
    modify (set_files (<[p := mkFile content a]> (files w)));;;
    emit (EvWrite p).

(** ** File attributes *)

Definition with_default {A} (o : option A) (d : A) : A :=
  match o with Some x => x | None => d end.

(** The attributes of a file once the file arguments are applied to it. *)
Definition apply_file_args (fa : FileArgs) (a : Attrs) : Attrs :=
  mkAttrs (with_default (fa_owner fa) (owner a))
          (with_default (fa_group fa) (group a))
          (with_default (fa_mode fa) (mode a)).

Definition attrs_eqb (a b : Attrs) : bool :=
  String.eqb (owner a) (owner b) && String.eqb (group a) (group b)
  && N.eqb (mode a) (mode b).

(** [module.check_file_absent_if_check_mode]. *)
Definition check_file_absent_if_check_mode (check_mode : bool) (p : string) : M bool :=
  w <- get_world;;
  ret (check_mode && negb (path_exists w p)).

(** [module.set_fs_attributes_if_different]: owner, group and mode of the file
    are brought to what the file arguments ask for.  It returns [True] when
    something differed and the value passed in otherwise; in check mode it
    reports the difference without changing the file. *)
Definition set_fs_attributes_if_different
    (check_mode : bool) (p : string) (fa : FileArgs) (changed : bool) : M bool :=
  w <- get_world;;
  match files w !! p with
  | Some f =>
      if attrs_eqb (apply_file_args fa (attrs f)) (attrs f)
      then ret changed
      else if check_mode then ret true
      else
        modify (set_files (<[p := mkFile (data f) (apply_file_args fa (attrs f))]> (files w)));;;
        emit (EvChattr p);;;
        ret true
  | None => ret changed
  end.

(** ** The backend capability *)

(** Modelled from the spec: the backend of [module_backends/csr.py], which is
    not among the sources.  Sections 2 and 4.3: a backend parses the bytes of
    an existing artifact, decides whether an artifact matches the desired
    specification, builds and serializes a new artifact and summarizes one
    field by field; it may reject the specification, fail to get hold of the
    signing key, or not support what is asked. *)
Class Backend (DesiredSpec Artifact : Type) : Type := {
  validate : DesiredSpec -> option BackendError;
  parse : string -> option Artifact;
  matches : Artifact -> DesiredSpec -> BackendError + bool;
  build : DesiredSpec -> BackendError + Artifact;
  serialize : Artifact -> string;
  summarize : Artifact -> gmap string string
}.

(** Modelled from the spec: the invariant of section 3 on what a backend
    builds, which the backend of [module_backends/csr.py] has to keep: the
    bytes of a newly built artifact, parsed again and compared against the
    specification it was built for, report that it matches. *)
Class BackendInvariant (DesiredSpec Artifact : Type)
    `{!Backend DesiredSpec Artifact} : Prop :=
  built_matches : forall (d : DesiredSpec) (a : Artifact),
    build d = inr a ->
    exists a', parse (serialize a) = Some a' /\ matches a' d = inr true.

Inductive State : Type := present | absent.

Section Reconciler.

Context {DesiredSpec Artifact : Type} `{!Backend DesiredSpec Artifact}.

(** [module.params], with the common file arguments gathered in one field and
    the options that describe the CSR in another. *)
Record Params : Type := mkParams {
  p_path : string;
  p_state : State;
  p_force : bool;
  p_backup : bool;
  p_return_content : bool;
  p_file_args : FileArgs;
  p_desired : DesiredSpec
}.

Record AnsibleModule : Type := mkModule {
  params : Params;
  check_mode : bool
}.

(** The backend object of a run: the desired specification it was made for,
    the bytes found at the path and the CSR it has generated, if any. *)
Record ModuleBackend : Type := mkBackend {
  desired : DesiredSpec;
  existing_csr_bytes : option string;
  csr : option Artifact
}.

Definition lift_backend {A} (r : BackendError + A) : M A :=
  match r with
  | inl e => raise (BackendFailure e)
  | inr a => ret a
  end.

(** Modelled from the spec: [select_backend].  The backend is chosen once at
    the start of the run (section 9) for the desired specification, which it
    may find inconsistent (section 4.3). *)
Definition select_backend (module : AnsibleModule) : M ModuleBackend :=
  emit EvSelectBackend;;;
  match validate (p_desired (params module)) with
  | Some e => raise (BackendFailure e)
  | None => ret (mkBackend (p_desired (params module)) None None)
  end.

Definition set_existing (csr_bytes : option string) (mb : ModuleBackend) : ModuleBackend :=
  mkBackend (desired mb) csr_bytes (csr mb).

(** Modelled from the spec: [needs_regeneration].  Section 4.1: an artifact
    that is absent or whose bytes do not parse is to be regenerated; one that
    parses is regenerated when the comparison says it does not match. *)
Definition needs_regeneration (mb : ModuleBackend) : M bool :=
  emit EvCompare;;;
  match existing_csr_bytes mb with
  | None => ret true
  | Some b =>
      match parse b with
      | None => ret true
      | Some a =>
          ok <- lift_backend (matches a (desired mb));;
          ret (negb ok)
      end
  end.

(** Modelled from the spec: [generate_csr], the [build] of section 4.3. *)
Definition generate_csr (mb : ModuleBackend) : M ModuleBackend :=
  emit EvBuild;;;
  a <- lift_backend (build (desired mb));;
  ret (mkBackend (desired mb) (existing_csr_bytes mb) (Some a)).

(** Modelled from the spec: [get_csr_data], the [serialize] of section 4.3,
    of the CSR generated in this run.  Without one there is nothing to
    serialize, and the exception is not one the module catches. *)
Definition get_csr_data (mb : ModuleBackend) : M string :=
  match csr mb with
  | Some a => ret (serialize a)
  | None => fail_json (msg_kw "no CSR has been generated")
  end.

(** The bytes of the artifact the run ends with: the CSR generated in this
    run, or else what was found at the path. *)
Definition current_bytes (mb : ModuleBackend) : option string :=
  match csr mb with
  | Some a => Some (serialize a)
  | None => existing_csr_bytes mb
  end.

(** Modelled from the spec: the backend's [dump].  Section 6: the output
    record has the structured summary of the artifact and, when asked for,
    its serialized content, which may be absent. *)
Definition backend_dump (include_csr : bool) (mb : ModuleBackend) : gmap string pyval :=
  let summary : gmap string string :=
    match current_bytes mb ≫= parse with
    | Some a => summarize a
    | None => ∅
    end in
  let result : gmap string pyval := {[ "summary" := PDict summary ]} in
  if include_csr
  then <["csr" := match current_bytes mb with Some b => PStr b | None => PNone end]> result
  else result.

(** ** [OpenSSLObject] and [CertificateSigningRequestModule] *)

(** The fields of the object: those of the base class [OpenSSLObject]
    ([path], [state], [force], [check_mode], [changed]) and those the
    subclass adds. *)
Record CertificateSigningRequestModule : Type := mkCSR {
  path : string;
  state : State;
  force : bool;
  self_check_mode : bool;
  changed : bool;
  module_backend : ModuleBackend;
  return_content : bool;
  backup : bool;
  backup_file : option string
}.

Definition set_changed (c : bool) (self : CertificateSigningRequestModule) :=
  mkCSR (path self) (state self) (force self) (self_check_mode self) c
        (module_backend self) (return_content self) (backup self) (backup_file self).

Definition set_module_backend (mb : ModuleBackend) (self : CertificateSigningRequestModule) :=
  mkCSR (path self) (state self) (force self) (self_check_mode self) (changed self)
        mb (return_content self) (backup self) (backup_file self).

Definition set_backup_file (b : option string) (self : CertificateSigningRequestModule) :=
  mkCSR (path self) (state self) (force self) (self_check_mode self) (changed self)
        (module_backend self) (return_content self) (backup self) b.

(** [__init__]: the fields are taken from the module's parameters, nothing has
    changed yet, and the backend is told what is at the path now. *)
Definition init (module : AnsibleModule) (mb : ModuleBackend)
  : M CertificateSigningRequestModule :=
  let ps := params module in
  existing <- load_file_if_exists (p_path ps);;
  ret (mkCSR (p_path ps) (p_state ps) (p_force ps) (check_mode module) false
             (set_existing existing mb) (p_return_content ps) (p_backup ps) None).

(** [generate]. *)
Definition generate (module : AnsibleModule) (self : CertificateSigningRequestModule)
  : M CertificateSigningRequestModule :=
  regenerate <- (if force self then ret true
                 else needs_regeneration (module_backend self));;
  self <- (if regenerate : bool then
             self <- (if negb (self_check_mode self) then
                        mb <- generate_csr (module_backend self);;
                        let self := set_module_backend mb self in
                        result <- get_csr_data (module_backend self);;
                        self <- (if backup self then
                                   dest <- backup_local (path self);;
                                   ret (set_backup_file (Some dest) self)
                                 else ret self);;
                        write_file (p_path (params module)) result;;;
                        ret self
                      else ret self);;
             ret (set_changed true self)
           else ret self);;
  let file_args := p_file_args (params module) in
  let fa_path := p_path (params module) in
  file_absent <- check_file_absent_if_check_mode (check_mode module) fa_path;;
  if file_absent : bool then ret (set_changed true self)
  else
    c <- set_fs_attributes_if_different (check_mode module) fa_path file_args (changed self);;
    ret (set_changed c self).

(** Modelled from the spec: [OpenSSLObject.remove] of
    [module_utils/crypto/support.py], which is not among the sources.
    Section 4.2, [remove]: it deletes the file, and the absence of the file is
    not an error; section 4.1: under the simulated mode the decision is still
    computed and reported, nothing is done; section 7: a delete that fails is
    fatal. *)
Definition OpenSSLObject_remove (self : CertificateSigningRequestModule)
  : M CertificateSigningRequestModule :=
  w <- get_world;;
  if self_check_mode self then
    ret (if path_exists w (path self) then set_changed true self else self)
  else
    match files w !! path self with
    | Some _ =>
        if remove_fails (faults w)
        then raise (RemoveFailure ("Cannot remove " +:+ path self))
        else
          modify (set_files (delete (path self) (files w)));;;
          emit (EvRemove (path self));;;
          ret (set_changed true self)
    | None =>
        if isdir w (path self)
        then raise (RemoveFailure ("Cannot remove " +:+ path self))
        else ret self
    end.

(** [remove]. *)
Definition remove (module : AnsibleModule) (self : CertificateSigningRequestModule)
  : M CertificateSigningRequestModule :=
  let self := set_module_backend (set_existing None (module_backend self)) self in
  self <- (if backup self && negb (self_check_mode self) then
             dest <- backup_local (path self);;
             ret (set_backup_file (Some dest) self)
           else ret self);;
  OpenSSLObject_remove self.

(** [dump]: the backend's record, updated with the file name and the changed
    flag, and with the name of the backup when there is one. *)
Definition dump (self : CertificateSigningRequestModule) : gmap string pyval :=
  let result := backend_dump (return_content self) (module_backend self) in
  let result := <["changed" := PBool (changed self)]>
                  (<["filename" := PStr (path self)]> result) in
  if truthy (backup_file self)
  then <["backup_file" := PStr (with_default (backup_file self) "")]> result
  else result.

(** ** [main] *)

(** How a run ends: [module.exit_json] with the result record, or
    [module.fail_json] with its keywords. *)
Inductive Outcome : Type :=
| ExitJson (result : gmap string pyval)
| FailJson (kw : gmap string pyval).

(** The body of the [try] statement of [main], up to the call of
    [exit_json]. *)
Definition run (module : AnsibleModule) : M (gmap string pyval) :=
  module_backend <- select_backend module;;
  csr <- init module module_backend;;
  csr <- (match p_state (params module) with
          | present => generate module csr
          | absent => remove module csr
          end);;
  ret (dump csr).

Definition base_dir (module : AnsibleModule) : string :=
  let d := dirname (p_path (params module)) in
  if String.eqb d "" then "." else d.

Definition main (module : AnsibleModule) (w : World) : Outcome * World :=
  if negb (isdir w (base_dir module))
  then (FailJson (<["name" := PStr (base_dir module)]>
                    (msg_kw ("The directory " +:+ base_dir module +:+
                             " does not exist or the file is not a directory"))), w)
  else
    match run module w with
    | (Ok result, w') => (ExitJson result, w')
    | (Raise exc, w') => (FailJson (msg_kw (to_native exc)), w')
    | (Fail kw, w') => (FailJson kw, w')
    end.

(** ** Notions the properties are stated with *)

(** Section 4.1: the existing artifact matches when its bytes parse and the
    backend's comparison accepts them. *)
Definition existing_matches (d : DesiredSpec) (existing : option string) : bool :=
  match existing ≫= parse with
  | Some a => match matches a d with inr true => true | _ => false end
  | None => false
  end.

(** The transition table of section 4.1 for the requested state [present]:
    regenerate unless the artifact matches and [force] is off. *)
Definition regeneration_due (module : AnsibleModule) (w : World) : bool :=
  p_force (params module)
  || negb (existing_matches (p_desired (params module))
                            (data <$> files w !! p_path (params module))).

(** The same module run for real, not in check mode. *)
Definition applied (module : AnsibleModule) : AnsibleModule :=
  mkModule (params module) false.




End Reconciler.

(** The events of a run that starts in [w] and ends in [w']. *)
Definition events_between (w w' : World) : list Event :=
  drop (length (trace w)) (trace w').

Definition is_destructive (e : Event) : bool :=
  match e with
  | EvWrite _ | EvRemove _ => true
  | _ => false
  end.

Definition is_mutation (e : Event) : bool :=
  match e with
  | EvBackup _ _ | EvWrite _ | EvRemove _ | EvChattr _ => true
  | _ => false
  end.

Definition is_backup (e : Event) : bool :=
  match e with
  | EvBackup _ _ => true
  | _ => false
  end.

(** Reads a trace in order and checks that no write or removal comes before
    a backup has been made; [backed] tells whether one has been seen. *)
Fixpoint backed_up_first (backed : bool) (tr : list Event) : bool :=
  match tr with
  | [] => true
  | e :: tr' =>
      if is_backup e then backed_up_first true tr'
      else if is_destructive e then backed && backed_up_first backed tr'
      else backed_up_first backed tr'
  end.

(** The record of a finished run, whichever way it ended. *)
Definition record_of (o : Outcome) : gmap string pyval :=
  match o with
  | ExitJson result => result
  | FailJson kw => kw
  end.

Arguments Params : clear implicits.
Arguments AnsibleModule : clear implicits.
Arguments ModuleBackend : clear implicits.
Arguments CertificateSigningRequestModule : clear implicits.

(** ** The argument specification of the module *)

(** The description of one option: [dict(type=..., default=..., choices=...,
    required=...)]. *)
Record OptionSpec : Type := mkOption {
  opt_type : string;
  opt_default : option pyval;
  opt_choices : list string;
  opt_required : bool
}.

(** The fields of the [ArgumentSpec] object that [main] touches: the options,
    the conditional requirements [(key, value, requirements, is_one_of)] and
    the groups of which one option is required. *)
Record ArgumentSpec : Type := mkArgumentSpec {
  argument_spec : gmap string OptionSpec;
  required_if : list (string * string * list string * bool);
  required_one_of : list (list string)
}.

(** The options that [main] adds to those of the CSR backend. *)
Definition module_options : gmap string OptionSpec :=
  <["state" := mkOption "str" (Some (PStr "present")) ["absent"; "present"] false]>
  (<["force" := mkOption "bool" (Some (PBool false)) [] false]>
  (<["path" := mkOption "path" None [] true]>
  (<["backup" := mkOption "bool" (Some (PBool false)) [] false]>
  (<["return_content" := mkOption "bool" (Some (PBool false)) [] false]> ∅)))).

(** [dict.update]: the entries of [other] replace those of the same key. *)
Definition dict_update {V} (d other : gmap string V) : gmap string V := other ∪ d.

(** What [main] makes of the argument specification of the backend before it
    creates the module: its own options are added, and every group of which
    one option was required is required only when the state is [present]. *)
Definition module_argument_spec (a : ArgumentSpec) : ArgumentSpec :=
  mkArgumentSpec
    (dict_update (argument_spec a) module_options)
    (required_if a ++ map (fun rof => ("state", "present", rof, true)) (required_one_of a))
    [].

(** ** Further notions the properties are stated with *)

(** The path has a separator in it. *)
Definition has_sep (p : string) : bool := existsb is_sep (list_ascii_of_string p).

(** The calls of the backend's comparison and of its generation. *)
Definition is_compare (e : Event) : bool :=
  match e with
  | EvCompare => true
  | _ => false
  end.

Definition is_build (e : Event) : bool :=
  match e with
  | EvBuild => true
  | _ => false
  end.

(** ** A small backend to run the module with *)

Module Demo.

(** The desired CSR: a common name, and whether the signing key it refers to
    can be loaded. *)
Record Spec : Type := mkSpec {
  common_name : string;
  key_available : bool
}.

Definition header : string := "CSR:".

Definition demo_parse (b : string) : option string :=
  if String.prefix header b
  then Some (String.substring 4 (String.length b - 4) b)
  else None.

#[global] Instance demo_backend : Backend Spec string := {
  validate d :=
    if String.eqb (common_name d) ""
    then Some (InvalidSpecification "no subject given")
    else None;
  parse := demo_parse;
  matches a d :=
    if key_available d
    then inr (String.eqb a (common_name d))
    else inl (SigningKeyUnavailable "cannot load the private key");
  build d :=
    if key_available d
    then inr (common_name d)
    else inl (SigningKeyUnavailable "cannot load the private key");
  serialize a := header +:+ a;
  summarize a := {[ "subject" := a ]}
}.

Definition csr_path : string := "/etc/ssl/csr/www.ansible.com.csr".

Definition no_file_args : FileArgs := mkFileArgs None None None.

Definition wanted : Spec := mkSpec "www.ansible.com" true.

Definition demo_params (st : State) (frc bkp rc : bool) (fa : FileArgs) : Params Spec :=
  mkParams csr_path st frc bkp rc fa wanted.

Definition root_attrs : Attrs := mkAttrs "root" "root" 420.

Definition no_faults : Faults := mkFaults false false false false.

(** A world in which the directory of the CSR exists and holds the files
    [fs]. *)
Definition world_with (fs : gmap string File) : World :=
  mkWorld fs {[ "/etc/ssl/csr" ]} no_faults root_attrs "2019-03-09@11:22" [].

Definition empty_world : World := world_with ∅.

(** The CSR asked for, for real, without [force] or a backup. *)
Definition plain_module : AnsibleModule Spec :=
  mkModule (demo_params present false false false no_file_args) false.

(** With a backup asked for, for real and in check mode. *)
Definition backup_module : AnsibleModule Spec :=
  mkModule (demo_params present false true false no_file_args) false.

Definition check_module : AnsibleModule Spec :=
  mkModule (demo_params present false true false no_file_args) true.

(** The CSR is to be removed; a backup and the content are asked for. *)
Definition absent_module : AnsibleModule Spec :=
  mkModule (demo_params absent false true true no_file_args) false.

(** The CSR is to be readable by its owner only (mode 0600). *)
Definition private_args : FileArgs := mkFileArgs None None (Some 384%N).

Definition private_module : AnsibleModule Spec :=
  mkModule (demo_params present false false false private_args) false.

(** The signing key of the CSR cannot be loaded. *)
Definition keyless_module : AnsibleModule Spec :=
  mkModule (mkParams csr_path present false false false no_file_args
                     (mkSpec "www.ansible.com" false)) false.

(** A world without the directory of the CSR. *)
Definition bare_world : World :=
  mkWorld ∅ ∅ no_faults root_attrs "2019-03-09@11:22" [].

Definition matching_file : File := mkFile "CSR:www.ansible.com" root_attrs.
Definition other_file : File := mkFile "CSR:old.ansible.com" root_attrs.
Definition corrupt_file : File := mkFile "garbage" root_attrs.

(** Worlds with a CSR at the path: one that matches what is wanted, one for
    another name, and one that is no CSR. *)
Definition matching_world : World := world_with {[ csr_path := matching_file ]}.
Definition stale_world : World := world_with {[ csr_path := other_file ]}.
Definition corrupt_world : World := world_with {[ csr_path := corrupt_file ]}.

(** The stale CSR again, where no backup can be made. *)
Definition no_backup_world : World :=
  mkWorld {[ csr_path := other_file ]} {[ "/etc/ssl/csr" ]}
          (mkFaults false true false false) root_attrs "2019-03-09@11:22" [].

(** The stale CSR is to be removed, with a backup, for real. *)
Definition removing_module : AnsibleModule Spec :=
  mkModule (demo_params absent false true false no_file_args) false.

(** The CSR is asked for with its content, without [force] or a backup. *)
Definition content_module : AnsibleModule Spec :=
  mkModule (demo_params present false false true no_file_args) false.

(** An argument specification as a backend may hand it over: the key is to be
    given by its path or by its content. *)
Definition backend_argument_spec : ArgumentSpec :=
  mkArgumentSpec
    {[ "privatekey_path" := mkOption "path" None [] false;
       "privatekey_content" := mkOption "str" None [] false ]}
    []
    [["privatekey_path"; "privatekey_content"]].

(** The CSR is asked for under a bare file name. *)
Definition bare_name_module : AnsibleModule Spec :=
  mkModule (mkParams "www.ansible.com.csr" present false false false
                     no_file_args wanted) false.

Definition key_error : OpenSSLObjectError :=
  BackendFailure (SigningKeyUnavailable "cannot load the private key").

End Demo.

(** * Properties *)

(** ** Symbolic execution of a run *)

(** Unfolds the run and the projections of its records, nothing else. *)
Ltac red_run :=
  lazy beta iota zeta delta
    [main run init generate remove OpenSSLObject_remove
     select_backend needs_regeneration generate_csr get_csr_data
     load_file_if_exists backup_local write_file backup_dest
     check_file_absent_if_check_mode set_fs_attributes_if_different
     lift_backend emit modify get_world fail_json raise bind ret
     path_exists isdir
     files dirs faults new_file_attrs backup_stamp trace set_files log_event
     read_denied backup_fails write_fails remove_fails
     params check_mode p_path p_state p_force p_backup p_return_content
     p_file_args p_desired
     path state force self_check_mode changed module_backend return_content
     backup backup_file set_changed set_module_backend set_backup_file
     set_existing desired existing_csr_bytes csr applied
     regeneration_due existing_matches
     fmap option_fmap option_map mbind option_bind
     negb andb orb fst snd].

Ltac proj_simpl :=
  cbn [files dirs faults new_file_attrs backup_stamp trace
       read_denied backup_fails write_fails remove_fails
       params check_mode p_path p_state p_force p_backup p_return_content
       p_file_args p_desired applied fst snd] in *.

Lemma backup_name_ne (p s : string) : p +:+ "." +:+ s ≠ p.
Proof. induction p as [|c p IH]; [done|]. intros [=]. by apply IH. Qed.

Lemma bool_decide_is_Some {A} (x : A) : bool_decide (is_Some (Some x)) = true.
Proof. apply bool_decide_eq_true_2. eauto. Qed.

Lemma bool_decide_is_None {A} : bool_decide (is_Some (@None A)) = false.
Proof. apply bool_decide_eq_false_2. by intros [? ?]. Qed.

Lemma attrs_eqb_eq (a b : Attrs) : attrs_eqb a b = true <-> a = b.
Proof.
  unfold attrs_eqb. destruct a as [o g m], b as [o' g' m']; simpl.
  rewrite !andb_true_iff, !String.eqb_eq, N.eqb_eq. naive_solver.
Qed.

Lemma apply_file_args_idemp fa a :
  apply_file_args fa (apply_file_args fa a) = apply_file_args fa a.
Proof. by destruct fa as [[?|] [?|] [?|]], a. Qed.

Lemma attrs_eqb_applied fa a :
  attrs_eqb (apply_file_args fa (apply_file_args fa a)) (apply_file_args fa a) = true.
Proof. apply attrs_eqb_eq, apply_file_args_idemp. Qed.

(** Rewrites with every equation of the context that applies. *)
Ltac rew_hyps :=
  repeat match goal with H : ?x = _ |- context [?x] => rewrite H end.

Ltac norm_run :=
  repeat first
    [ rewrite lookup_insert_eq
    | rewrite lookup_delete_eq
    | rewrite (lookup_insert_ne _ _ _ _ (backup_name_ne _ _))
    | rewrite bool_decide_is_Some
    | rewrite bool_decide_is_None
    | rewrite attrs_eqb_applied
    | progress cbn [data attrs]
    | progress rew_hyps ].

(** The innermost term the run is waiting for, and the case split on it. *)
Ltac find_stuck t :=
  lazymatch t with
  | context [match ?y with _ => _ end] => find_stuck y
  | _ => t
  end.

Ltac split_run :=
  lazymatch goal with
  | |- context [match ?x with _ => _ end] =>
      let y := find_stuck x in
      first [ is_var y; destruct y | destruct y eqn:? ]
  end.

Ltac sym_exec :=
  red_run; norm_run;
  repeat (split_run; red_run; norm_run; try discriminate).

(** The conclusion is put aside while the run in the hypothesis is executed. *)
Ltac hide_concl :=
  match goal with
  | |- _ -> ?P => let X := fresh "Concl" in set (X := P)
  end.

Ltac show_concl :=
  repeat match goal with X := _ : Prop |- _ => subst X end.

(** Brings the module and the world to their fields; the directory that
    [main] checks is kept as one name. *)
Ltac explode module w :=
  unfold main in *;
  change (base_dir (applied module)) with (base_dir module) in *;
  let bd := fresh "bd" in
  let Hbd := fresh "Hbd" in
  remember (base_dir module) as bd eqn:Hbd; clear Hbd;
  destruct module as [[? ? ? ? ? ? ?] ?];
  destruct w as [? ? [? ? ? ?] ? ? ?];
  proj_simpl; unfold isdir in *; proj_simpl.

Lemma events_between_app w w' (l : list Event) :
  trace w' = (trace w ++ l)%list -> events_between w w' = l.
Proof. intros Htr. unfold events_between. rewrite Htr. by rewrite drop_app_length. Qed.

Lemma events_between_refl w : events_between w w = [].
Proof. apply events_between_app. by rewrite app_nil_r. Qed.

(** Computes the events between two explicit worlds. *)
Ltac events :=
  repeat match goal with
  | |- context [events_between ?w ?w'] =>
      first [ rewrite (events_between_refl w)
            | erewrite (events_between_app w w')
                by (simpl; rewrite <- ?app_assoc; simpl; reflexivity) ]
  end.

#[local] Arguments dump : simpl never.

Section Props.
Context {DesiredSpec Artifact : Type} `{!Backend DesiredSpec Artifact}.
Implicit Types (module : AnsibleModule DesiredSpec) (w : World).
Implicit Types (self : CertificateSigningRequestModule DesiredSpec Artifact).

Lemma dump_changed self : dump self !! "changed" = Some (PBool (changed self)).
Proof. unfold dump. case_match; by simplify_map_eq. Qed.

Lemma dump_backup_file self :
  dump self !! "backup_file" =
  if truthy (backup_file self) then PStr <$> backup_file self else None.
Proof.
  unfold dump, backend_dump. destruct (backup_file self) as [s|]; simpl.
  - destruct (negb (s =? "")%string); repeat case_match; by simplify_map_eq.
  - repeat case_match; by simplify_map_eq.
Qed.

Lemma dump_csr self :
  dump self !! "csr" =
  if return_content self
  then Some (match current_bytes (module_backend self) with
             | Some b => PStr b
             | None => PNone
             end)
  else None.
Proof. unfold dump, backend_dump. repeat case_match; by simplify_map_eq. Qed.

Lemma dump_summary self :
  dump self !! "summary" =
  Some (PDict (match current_bytes (module_backend self) ≫= parse with
               | Some a => summarize a
               | None => ∅
               end)).
Proof. unfold dump, backend_dump. repeat case_match; by simplify_map_eq. Qed.

Lemma not_exists_lookup w p :
  path_exists w p = false -> files w !! p = None /\ isdir w p = false.
Proof.
  unfold path_exists. intros [Hf Hd]%orb_false_iff. split; [|done].
  apply bool_decide_eq_false in Hf. by apply eq_None_not_Some.
Qed.

(** [remove] forgets what was found at the path before anything else. *)
Lemma remove_clears_existing module self w self' w' :
  remove module self w = (Ok self', w') ->
  existing_csr_bytes (module_backend self') = None.
Proof.
  destruct self as [? ? ? cm ? [? ? ?] ? bk ?], w as [? ? [? ? ? ?] ? ? ?].
  hide_concl. sym_exec.
  all: intros ?; show_concl; by simplify_eq.
Qed.

Ltac leaf :=
  events;
  rewrite ?dump_changed, ?dump_backup_file, ?dump_csr, ?dump_summary;
  repeat (progress (simpl; norm_run)).

Ltac inv_leaf := intros ?; show_concl; simplify_eq; leaf.

(** Every event of an explicit list has the property. *)
Ltac all_events := apply Forall_forall; by repeat constructor.

(** An event is, or is not, in an explicit list. *)
Ltac in_events := by repeat constructor.
Ltac not_in_events H :=
  apply list_elem_of_In in H; simpl in H; intuition discriminate.

(** ** The precheck of the directory *)

(** C8: when the directory of the path does not exist or is not a directory,
    the run fails through [fail_json], naming the directory, and the world is
    left as it was: no backend was selected, nothing was loaded or compared,
    nothing was changed. *)
Theorem missing_parent_directory_fails_first module w :
  isdir w (base_dir module) = false ->
  exists kw,
    main module w = (FailJson kw, w)
    /\ kw !! "name" = Some (PStr (base_dir module))
    /\ kw !! "msg" = Some (PStr ("The directory " +:+ base_dir module +:+
                                 " does not exist or the file is not a directory"))
    /\ events_between w (main module w).2 = [].
Proof.
  intros Hdir. unfold main. rewrite Hdir. simpl.
  eexists. split; [reflexivity|]. rewrite events_between_refl.
  unfold msg_kw. by simplify_map_eq.
Qed.

(** ** Removal *)

(** C7: when the CSR is to be absent and nothing is at the path, the run
    (whose backend accepts the specification) succeeds with [changed] false;
    the files are what they were, no backup is made and the record has no
    [backup_file], whatever the [backup] option and the mode of the run. *)
Theorem absent_to_absent_noop module w :
  p_state (params module) = absent ->
  isdir w (base_dir module) = true ->
  path_exists w (p_path (params module)) = false ->
  validate (p_desired (params module)) = None ->
  exists r w',
    main module w = (ExitJson r, w')
    /\ r !! "changed" = Some (PBool false)
    /\ r !! "backup_file" = None
    /\ files w' = files w
    /\ (forall e, e ∈ events_between w w' -> is_backup e = false).
Proof.
  intros Hst Hdir [Hnone Hd]%not_exists_lookup Hval.
  explode module w. subst. sym_exec.
  all: eexists _, _; (split; [reflexivity|]); leaf.
  all: do 3 (split; [done|]); all_events.
Qed.

(** C10: the record of a run that was to make the CSR absent holds neither
    the content of the CSR nor a summary of it: [csr] is [None] when the
    content was asked for (and is not there otherwise), and the summary is
    empty. *)
Theorem removal_record_has_no_csr module w r w' :
  p_state (params module) = absent ->
  main module w = (ExitJson r, w') ->
  r !! "csr" = (if p_return_content (params module) then Some PNone else None)
  /\ r !! "summary" = Some (PDict ∅).
Proof.
  intros Hst Hmain. explode module w. subst. revert Hmain. hide_concl. sym_exec.
  all: inv_leaf; done.
Qed.

(** ** Regeneration *)

(** C3: in a successful run that is to make the CSR present, regeneration
    happens if and only if [force] is on or the existing artifact does not
    match: in a run for real the backend builds a CSR exactly then, the file
    is written exactly then, and the bytes at the path are then the
    serialized CSR the backend has built for the desired specification;
    [changed] is reported whenever regeneration is due, in check mode too;
    when it is not due the bytes at the path are left as they are and nothing
    is built, written, removed or backed up; and in check mode nothing is
    built, written, removed or backed up either. *)
Theorem regeneration_decision module w r w' :
  p_state (params module) = present ->
  main module w = (ExitJson r, w') ->
  (regeneration_due module w = true -> r !! "changed" = Some (PBool true))
  /\ (check_mode module = false ->
      (EvWrite (p_path (params module)) ∈ events_between w w'
       <-> regeneration_due module w = true)
      /\ (EvBuild ∈ events_between w w' <-> regeneration_due module w = true)
      /\ (regeneration_due module w = true ->
          exists a, build (p_desired (params module)) = inr a
            /\ data <$> files w' !! p_path (params module) = Some (serialize a)))
  /\ (regeneration_due module w = false ->
      data <$> files w' !! p_path (params module)
        = data <$> files w !! p_path (params module)
      /\ forall e, e ∈ events_between w w' ->
           is_destructive e = false /\ is_backup e = false /\ is_build e = false)
  /\ (check_mode module = true ->
      forall e, e ∈ events_between w w' ->
        is_destructive e = false /\ is_backup e = false /\ is_build e = false).
Proof.
  intros Hst Hmain. explode module w. subst. revert Hmain. hide_concl. sym_exec.
  all: inv_leaf; unfold regeneration_due, existing_matches; leaf.
  all: (split; [done|]); split; [|split].
  all: intros Hx; try discriminate Hx.
  all: try (split; [done|]; all_events).
  all: try all_events.
  all: split; [|split].
  all: try (split; intros Hy; first [done | in_events | not_in_events Hy]).
  all: intros Hy; try discriminate Hy; eexists; split; reflexivity.
Qed.

(** C5: a file at the path whose bytes do not parse is no error: when the
    CSR is to be present and the run is for real, in an environment without
    I/O failures and with a backend that can build the CSR, the run succeeds,
    writes the serialized new CSR to the path and reports [changed]. *)
Theorem corrupt_file_is_regenerated module w f a :
  p_state (params module) = present ->
  check_mode module = false ->
  isdir w (base_dir module) = true ->
  files w !! p_path (params module) = Some f ->
  parse (data f) = None ->
  validate (p_desired (params module)) = None ->
  build (p_desired (params module)) = inr a ->
  faults w = mkFaults false false false false ->
  exists r w',
    main module w = (ExitJson r, w')
    /\ r !! "changed" = Some (PBool true)
    /\ data <$> files w' !! p_path (params module) = Some (serialize a)
    /\ EvWrite (p_path (params module)) ∈ events_between w w'.
Proof.
  intros Hst Hcm Hdir Hf Hparse Hval Hbuild Hfl. explode module w.
  simplify_eq. sym_exec.
  all: eexists _, _; (split; [reflexivity|]); leaf.
  all: do 2 (split; [done|]); in_events.
Qed.

(** A run for [present] without [force] over a file that matches: the bytes
    stay, the attributes are brought in line, and the run reports a change
    exactly when they were not. *)
Lemma matching_present_run module w f a :
  p_state (params module) = present ->
  check_mode module = false ->
  p_force (params module) = false ->
  isdir w (base_dir module) = true ->
  validate (p_desired (params module)) = None ->
  files w !! p_path (params module) = Some f ->
  read_denied (faults w) = false ->
  parse (data f) = Some a ->
  matches a (p_desired (params module)) = inr true ->
  exists r w',
    main module w = (ExitJson r, w')
    /\ files w' !! p_path (params module)
        = Some (mkFile (data f)
                  (apply_file_args (p_file_args (params module)) (attrs f)))
    /\ r !! "changed"
        = Some (PBool (negb (attrs_eqb
              (apply_file_args (p_file_args (params module)) (attrs f))
              (attrs f))))
    /\ forall e, e ∈ events_between w w' ->
         is_destructive e = false /\ is_backup e = false.
Proof.
  intros Hst Hcm Hfrc Hdir Hval Hf Hrd Hparse Hmatch. explode module w.
  simplify_eq. sym_exec.
  all: eexists _, _; (split; [reflexivity|]); leaf.
  all: split; [|split; [done|all_events]].
  all: match goal with
       | H : attrs_eqb _ _ = true |- _ =>
           apply attrs_eqb_eq in H; rewrite H; by destruct f
       | _ => done
       end.
Qed.


(** C9: a run for real that is to make the CSR present brings the
    attributes of the file in line with the file arguments whenever it
    succeeds; and when the existing CSR matches and [force] is off, the run
    succeeds, leaves the bytes alone, writes and backs up nothing, sets the
    attributes, and reports [changed] exactly when the attributes differed
    from those asked for. *)
Theorem attributes_normalized_without_regeneration module w :
  p_state (params module) = present ->
  check_mode module = false ->
  (forall r w', main module w = (ExitJson r, w') ->
     exists f', files w' !! p_path (params module) = Some f'
       /\ apply_file_args (p_file_args (params module)) (attrs f') = attrs f')
  /\ (forall f a,
       p_force (params module) = false ->
       isdir w (base_dir module) = true ->
       validate (p_desired (params module)) = None ->
       files w !! p_path (params module) = Some f ->
       read_denied (faults w) = false ->
       parse (data f) = Some a ->
       matches a (p_desired (params module)) = inr true ->
       exists r w',
         main module w = (ExitJson r, w')
         /\ files w' !! p_path (params module)
             = Some (mkFile (data f)
                       (apply_file_args (p_file_args (params module)) (attrs f)))
         /\ r !! "changed"
             = Some (PBool (negb (attrs_eqb
                   (apply_file_args (p_file_args (params module)) (attrs f))
                   (attrs f))))
         /\ forall e, e ∈ events_between w w' ->
              is_destructive e = false /\ is_backup e = false).
Proof.
  intros Hst Hcm. split.
  - intros r w' Hmain. explode module w. simplify_eq.
    revert Hmain. hide_concl. sym_exec.
    all: inv_leaf; simpl in *.
    all: eexists; (split; [reflexivity|]); simpl.
    all: first [ apply apply_file_args_idemp | by apply attrs_eqb_eq ].
  - intros f a ???????. by apply (matching_present_run module w f a).
Qed.

(** ** Errors *)

(** C6: when the body of [main] raises an [OpenSSLObjectError], the run ends
    through [fail_json] with the message of the exception and nothing else,
    the file at the path is what it was and nothing was written or removed;
    when the exception is one of the backend, no file at all has changed and
    no backup was made. *)
Theorem openssl_error_is_fatal module w exc w' :
  isdir w (base_dir module) = true ->
  run module w = (Raise exc, w') ->
  main module w = (FailJson (msg_kw (to_native exc)), w')
  /\ files w' !! p_path (params module) = files w !! p_path (params module)
  /\ (forall ev, ev ∈ events_between w w' -> is_destructive ev = false)
  /\ (forall e, exc = BackendFailure e ->
        files w' = files w
        /\ forall ev, ev ∈ events_between w w' -> is_backup ev = false).
Proof.
  intros Hdir Hrun. unfold main. rewrite Hdir, Hrun. simpl.
  split; [done|]. clear Hdir. explode module w.
  revert Hrun. hide_concl. sym_exec.
  all: inv_leaf.
  all: split; [done|].
  all: split; [all_events|].
  all: intros e' ?; simplify_eq.
  all: split; [done|all_events].
Qed.

(** A backend that rejects the specification makes the run raise at once. *)
Lemma invalid_specification_raises module w e :
  validate (p_desired (params module)) = Some e ->
  run module w = (Raise (BackendFailure e), log_event EvSelectBackend w).
Proof.
  intros Hval. unfold run, select_backend, bind, emit, modify, raise.
  by rewrite Hval.
Qed.

(** ** Backups *)

Lemma backed_up_first_sound tr : forall backed,
  backed_up_first backed tr = true ->
  forall pre ev post,
    tr = (pre ++ ev :: post)%list -> is_destructive ev = true ->
    backed = true \/ exists b, b ∈ pre /\ is_backup b = true.
Proof.
  induction tr as [|x tr IH]; intros backed Hok pre ev post Heq Hev.
  - by destruct pre.
  - destruct pre as [|y pre]; simplify_eq/=.
    + destruct ev; simplify_eq/=; left; by destruct backed.
    + destruct (is_backup y) eqn:Hy.
      * right. exists y. split; [by left|done].
      * assert (backed_up_first backed (pre ++ ev :: post) = true) as Hok'.
        { destruct (is_destructive y); [|done].
          by apply andb_true_iff in Hok as [_ ?]. }
        destruct (IH _ Hok' _ _ _ eq_refl Hev) as [?|(b & ? & ?)]; [by left|].
        right. exists b. split; [by right|done].
Qed.

(** C4: in a run for real with [backup] on over an existing file, whatever
    its outcome, every write or removal comes after a completed backup; and
    when the backup cannot be made, nothing is written or removed, the bytes
    at the path stay, and the run fails whenever it was to remove the file or
    to regenerate it. *)
Theorem backup_precedes_destruction module w out w' :
  check_mode module = false ->
  p_backup (params module) = true ->
  is_Some (files w !! p_path (params module)) ->
  main module w = (out, w') ->
  (forall pre ev post,
     events_between w w' = (pre ++ ev :: post)%list ->
     is_destructive ev = true ->
     exists b, b ∈ pre /\ is_backup b = true)
  /\ (backup_fails (faults w) = true ->
      (forall ev, ev ∈ events_between w w' -> is_destructive ev = false)
      /\ data <$> files w' !! p_path (params module)
          = data <$> files w !! p_path (params module)
      /\ (p_state (params module) = absent \/ regeneration_due module w = true ->
          exists kw, out = FailJson kw)).
Proof.
  intros Hcm Hbk [f Hf] Hmain. explode module w. simplify_eq.
  revert Hmain. hide_concl. sym_exec.
  all: inv_leaf; unfold regeneration_due, existing_matches; leaf.
  all: split;
    [ intros pre ev post Heq Hev;
      match type of Heq with
      | ?tr = _ =>
          by destruct (backed_up_first_sound tr false eq_refl _ _ _ Heq Hev)
      end | ].
  all: try (intros ?; discriminate).
  all: intros _; split; [all_events|].
  all: split; [done|].
  all: intros [?|?]; simplify_eq/=; eauto.
Qed.

(** ** Check mode *)

(** C2: a run in check mode, whatever the world, the requested state and its
    outcome, leaves the files as they are and does nothing that changes them
    (no backup, write, removal or change of attributes); and whenever the
    same module run for real on the same world succeeds, the run in check
    mode succeeds too and reports the same [changed]. *)
Theorem simulate_is_pure module w :
  check_mode module = true ->
  files (main module w).2 = files w
  /\ (forall ev, ev ∈ events_between w (main module w).2 -> is_mutation ev = false)
  /\ (forall ra wa,
       main (applied module) w = (ExitJson ra, wa) ->
       exists rc,
         (main module w).1 = ExitJson rc
         /\ rc !! "changed" = ra !! "changed").
Proof.
  intros Hcm. split; [|split].
  - explode module w. simplify_eq. sym_exec. all: done.
  - explode module w. simplify_eq. sym_exec.
    all: leaf; all_events.
  - intros ra wa Hmain. explode module w. simplify_eq. revert Hmain.
    sym_exec.
    all: intros ?; simplify_eq; leaf.
    all: eexists; (split; [reflexivity|]); by rewrite !dump_changed.
Qed.

(** ** Idempotence *)




End Props.

(** * The properties on a small backend *)

Ltac run_demo := vm_compute; reflexivity.

Lemma substring_whole (s : string) : substring 0 (String.length s) s = s.
Proof. induction s as [|c s IH]; [done|]. simpl. by rewrite IH. Qed.

(** What the small backend builds, it parses and finds matching. *)
#[global] Instance demo_invariant : BackendInvariant Demo.Spec string.
Proof.
  intros d a Hb. simpl in *. revert Hb.
  destruct (Demo.key_available d); intros Hb; [|discriminate].
  injection Hb as <-. exists (Demo.common_name d). split.
  - unfold Demo.demo_parse, Demo.header.
    change ("CSR:" +:+ Demo.common_name d)
      with (String "C" (String "S" (String "R" (String ":" (Demo.common_name d))))).
    simpl. rewrite Nat.sub_0_r, substring_whole.
    by destruct (Demo.common_name d).
  - by rewrite String.eqb_refl.
Qed.



(** Over a stale CSR the first run reports a change and the second none, and
    the second leaves the bytes of the first. *)
Example stale_csr_converges_in_one_run :
  record_of (main Demo.plain_module Demo.stale_world).1 !! "changed"
    = Some (PBool true)
  /\ record_of (main Demo.plain_module
                  (main Demo.plain_module Demo.stale_world).2).1 !! "changed"
     = Some (PBool false)
  /\ data <$> files (main Demo.plain_module
                       (main Demo.plain_module Demo.stale_world).2).2
               !! Demo.csr_path
     = Some "CSR:www.ansible.com".
Proof. repeat split; run_demo. Qed.

Lemma simulate_is_pure_witness :
  files (main Demo.check_module Demo.stale_world).2 = files Demo.stale_world
  /\ (forall ev,
        ev ∈ events_between Demo.stale_world (main Demo.check_module Demo.stale_world).2 ->
        is_mutation ev = false)
  /\ (forall ra wa,
        main (applied Demo.check_module) Demo.stale_world = (ExitJson ra, wa) ->
        exists rc,
          (main Demo.check_module Demo.stale_world).1 = ExitJson rc
          /\ rc !! "changed" = ra !! "changed").
Proof.
  exact (simulate_is_pure Demo.check_module Demo.stale_world eq_refl).
Defined.

Lemma regeneration_decision_witness :
  (regeneration_due Demo.plain_module Demo.stale_world = true ->
   record_of (main Demo.plain_module Demo.stale_world).1 !! "changed"
     = Some (PBool true))
  /\ (check_mode Demo.plain_module = false ->
      (EvWrite (p_path (params Demo.plain_module))
         ∈ events_between Demo.stale_world (main Demo.plain_module Demo.stale_world).2
       <-> regeneration_due Demo.plain_module Demo.stale_world = true)
      /\ (EvBuild
            ∈ events_between Demo.stale_world (main Demo.plain_module Demo.stale_world).2
          <-> regeneration_due Demo.plain_module Demo.stale_world = true)
      /\ (regeneration_due Demo.plain_module Demo.stale_world = true ->
          exists a, build (p_desired (params Demo.plain_module)) = inr a
            /\ data <$> files (main Demo.plain_module Demo.stale_world).2
                          !! p_path (params Demo.plain_module)
               = Some (serialize a)))
  /\ (regeneration_due Demo.plain_module Demo.stale_world = false ->
      data <$> files (main Demo.plain_module Demo.stale_world).2
                 !! p_path (params Demo.plain_module)
        = data <$> files Demo.stale_world !! p_path (params Demo.plain_module)
      /\ forall e,
           e ∈ events_between Demo.stale_world (main Demo.plain_module Demo.stale_world).2 ->
           is_destructive e = false /\ is_backup e = false /\ is_build e = false)
  /\ (check_mode Demo.plain_module = true ->
      forall e,
        e ∈ events_between Demo.stale_world (main Demo.plain_module Demo.stale_world).2 ->
        is_destructive e = false /\ is_backup e = false /\ is_build e = false).
Proof.
  refine (regeneration_decision Demo.plain_module Demo.stale_world
            (record_of (main Demo.plain_module Demo.stale_world).1)
            (main Demo.plain_module Demo.stale_world).2 _ _); run_demo.
Defined.

(** The stale CSR is replaced by the one the backend builds for what is
    wanted. *)
Example stale_csr_is_rebuilt :
  data <$> files (main Demo.plain_module Demo.stale_world).2 !! Demo.csr_path
    = Some "CSR:www.ansible.com"
  /\ build (p_desired (params Demo.plain_module)) = inr "www.ansible.com".
Proof. split; run_demo. Qed.

Lemma backup_precedes_destruction_witness :
  (forall pre ev post,
     events_between Demo.stale_world (main Demo.backup_module Demo.stale_world).2
       = (pre ++ ev :: post)%list ->
     is_destructive ev = true ->
     exists b, b ∈ pre /\ is_backup b = true)
  /\ (backup_fails (faults Demo.stale_world) = true ->
      (forall ev,
         ev ∈ events_between Demo.stale_world (main Demo.backup_module Demo.stale_world).2 ->
         is_destructive ev = false)
      /\ data <$> files (main Demo.backup_module Demo.stale_world).2
                    !! p_path (params Demo.backup_module)
          = data <$> files Demo.stale_world !! p_path (params Demo.backup_module)
      /\ (p_state (params Demo.backup_module) = absent
          \/ regeneration_due Demo.backup_module Demo.stale_world = true ->
          exists kw, (main Demo.backup_module Demo.stale_world).1 = FailJson kw)).
Proof.
  refine (backup_precedes_destruction Demo.backup_module Demo.stale_world
            (main Demo.backup_module Demo.stale_world).1
            (main Demo.backup_module Demo.stale_world).2
            eq_refl eq_refl _ (surjective_pairing _)).
  exists Demo.other_file. run_demo.
Defined.

(** When the backup cannot be made the run fails and the stale CSR stays. *)
Example failed_backup_stops_the_write :
  (main Demo.backup_module Demo.no_backup_world).1
    = FailJson (msg_kw ("Could not make backup of " +:+ Demo.csr_path))
  /\ files (main Demo.backup_module Demo.no_backup_world).2
     = files Demo.no_backup_world.
Proof. split; run_demo. Qed.

Lemma corrupt_file_is_regenerated_witness :
  exists r w',
    main Demo.plain_module Demo.corrupt_world = (ExitJson r, w')
    /\ r !! "changed" = Some (PBool true)
    /\ data <$> files w' !! p_path (params Demo.plain_module)
        = Some (serialize "www.ansible.com")
    /\ EvWrite (p_path (params Demo.plain_module))
         ∈ events_between Demo.corrupt_world w'.
Proof.
  refine (corrupt_file_is_regenerated Demo.plain_module Demo.corrupt_world
            Demo.corrupt_file "www.ansible.com" _ _ _ _ _ _ _ _); run_demo.
Defined.

Lemma openssl_error_is_fatal_witness :
  main Demo.keyless_module Demo.empty_world
    = (FailJson (msg_kw (to_native Demo.key_error)),
       (run Demo.keyless_module Demo.empty_world).2)
  /\ files (run Demo.keyless_module Demo.empty_world).2
       !! p_path (params Demo.keyless_module)
     = files Demo.empty_world !! p_path (params Demo.keyless_module)
  /\ (forall ev,
        ev ∈ events_between Demo.empty_world (run Demo.keyless_module Demo.empty_world).2 ->
        is_destructive ev = false)
  /\ (forall e, Demo.key_error = BackendFailure e ->
        files (run Demo.keyless_module Demo.empty_world).2 = files Demo.empty_world
        /\ forall ev,
             ev ∈ events_between Demo.empty_world
                    (run Demo.keyless_module Demo.empty_world).2 ->
             is_backup ev = false).
Proof.
  refine (openssl_error_is_fatal Demo.keyless_module Demo.empty_world
            Demo.key_error (run Demo.keyless_module Demo.empty_world).2 _ _);
    run_demo.
Defined.

Lemma absent_to_absent_noop_witness :
  exists r w',
    main Demo.absent_module Demo.empty_world = (ExitJson r, w')
    /\ r !! "changed" = Some (PBool false)
    /\ r !! "backup_file" = None
    /\ files w' = files Demo.empty_world
    /\ (forall e, e ∈ events_between Demo.empty_world w' -> is_backup e = false).
Proof.
  refine (absent_to_absent_noop Demo.absent_module Demo.empty_world _ _ _ _);
    run_demo.
Defined.

Lemma missing_parent_directory_witness :
  exists kw,
    main Demo.plain_module Demo.bare_world = (FailJson kw, Demo.bare_world)
    /\ kw !! "name" = Some (PStr (base_dir Demo.plain_module))
    /\ kw !! "msg" = Some (PStr ("The directory " +:+ base_dir Demo.plain_module +:+
                                 " does not exist or the file is not a directory"))
    /\ events_between Demo.bare_world (main Demo.plain_module Demo.bare_world).2 = [].
Proof.
  refine (missing_parent_directory_fails_first
            Demo.plain_module Demo.bare_world _).
  run_demo.
Defined.

(** The CSR matches and only its mode is not the one asked for: the run
    reports [changed] and the bytes are those that were there. *)
Lemma attributes_normalized_witness :
  (forall r w',
     main Demo.private_module Demo.matching_world = (ExitJson r, w') ->
     exists f', files w' !! p_path (params Demo.private_module) = Some f'
       /\ apply_file_args (p_file_args (params Demo.private_module)) (attrs f')
          = attrs f')
  /\ exists r w',
       main Demo.private_module Demo.matching_world = (ExitJson r, w')
       /\ files w' !! p_path (params Demo.private_module)
           = Some (mkFile (data Demo.matching_file)
                     (apply_file_args (p_file_args (params Demo.private_module))
                                      (attrs Demo.matching_file)))
       /\ r !! "changed"
           = Some (PBool (negb (attrs_eqb
                 (apply_file_args (p_file_args (params Demo.private_module))
                                  (attrs Demo.matching_file))
                 (attrs Demo.matching_file))))
       /\ forall e, e ∈ events_between Demo.matching_world w' ->
            is_destructive e = false /\ is_backup e = false.
Proof.
  destruct (attributes_normalized_without_regeneration
              Demo.private_module Demo.matching_world eq_refl eq_refl)
    as [Hall Hmatch].
  split; [exact Hall|].
  refine (Hmatch Demo.matching_file "www.ansible.com" _ _ _ _ _ _ _); run_demo.
Defined.

Example attributes_alone_report_changed :
  record_of (main Demo.private_module Demo.matching_world).1 !! "changed"
    = Some (PBool true)
  /\ data <$> files (main Demo.private_module Demo.matching_world).2 !! Demo.csr_path
     = Some (data Demo.matching_file).
Proof. split; run_demo. Qed.

Lemma removal_record_witness :
  record_of (main Demo.absent_module Demo.matching_world).1 !! "csr"
    = (if p_return_content (params Demo.absent_module) then Some PNone else None)
  /\ record_of (main Demo.absent_module Demo.matching_world).1 !! "summary"
     = Some (PDict ∅).
Proof.
  refine (removal_record_has_no_csr Demo.absent_module Demo.matching_world
            (record_of (main Demo.absent_module Demo.matching_world).1)
            (main Demo.absent_module Demo.matching_world).2 _ _); run_demo.
Defined.

(** * Further properties *)

(** ** The directory that [main] checks *)

Lemma list_ascii_of_string_app (s1 s2 : string) :
  list_ascii_of_string (s1 +:+ s2)
  = (list_ascii_of_string s1 ++ list_ascii_of_string s2)%list.
Proof. induction s1 as [|c s1 IH]; [done|]. simpl. by rewrite <- IH. Qed.

Lemma drop_while_app {A} (f : A -> bool) (l1 l2 : list A) :
  Forall (fun x => f x = true) l1 ->
  drop_while f (l1 ++ l2) = drop_while f l2.
Proof. induction 1 as [|x l1 Hx _ IH]; [done|]. simpl. by rewrite Hx. Qed.

Lemma drop_while_all {A} (f : A -> bool) (l : list A) :
  Forall (fun x => f x = true) l -> drop_while f l = [].
Proof. induction 1 as [|x l Hx _ IH]; [done|]. simpl. by rewrite Hx. Qed.

Lemma no_sep_Forall (l : list ascii) :
  existsb is_sep l = false -> Forall (fun c => negb (is_sep c) = true) l.
Proof.
  induction l as [|c l IH]; simpl; [constructor|].
  intros [Hc Hl]%orb_false_iff. constructor; [by rewrite Hc|auto].
Qed.

(** X8: the directory that is checked is never the empty string, and for a
    path without a separator it is the current directory. *)
Theorem base_dir_of_bare_name {DesiredSpec} (module : AnsibleModule DesiredSpec) :
  base_dir module <> ""
  /\ (has_sep (p_path (params module)) = false -> base_dir module = ".").
Proof.
  unfold base_dir. split.
  - destruct (String.eqb _ "") eqn:Hd; [done|]. by apply String.eqb_neq.
  - intros Hsep. unfold has_sep in Hsep. apply no_sep_Forall in Hsep.
    assert (dirname (p_path (params module)) = "") as ->; [|done].
    unfold dirname. apply Forall_reverse in Hsep.
    by rewrite (drop_while_all _ _ Hsep).
Qed.

(** X9: for a path made of a directory that does not end in a separator, a
    separator and a name without separators, the directory checked is that
    directory. *)
Theorem base_dir_of_joined_path {DesiredSpec} (module : AnsibleModule DesiredSpec)
    (d name : string) (c : ascii) :
  p_path (params module) = d +:+ "/" +:+ name ->
  last (list_ascii_of_string d) = Some c ->
  is_sep c = false ->
  has_sep name = false ->
  base_dir module = d.
Proof.
  intros Hp [l Hl]%last_Some Hc Hname.
  assert (dirname (p_path (params module)) = d) as Hd.
  { unfold dirname. rewrite Hp, !list_ascii_of_string_app, Hl. simpl.
    rewrite reverse_app, reverse_cons, reverse_snoc, <- !app_assoc. simpl.
    rewrite drop_while_app
      by (apply Forall_reverse, no_sep_Forall, Hname).
    simpl. rewrite Hc. simpl.
    rewrite reverse_cons, reverse_involutive, <- Hl.
    apply string_of_list_ascii_of_string. }
  unfold base_dir. rewrite Hd.
  destruct (String.eqb d "") eqn:Hnil; [|done].
  apply String.eqb_eq in Hnil. rewrite Hnil in Hl. simpl in Hl. by destruct l.
Qed.

(** ** The argument specification *)

(** X10: in the argument specification the module is created from, the five
    options of the module are defined as [main] gives them, whatever the
    backend's specification says under these names, and the other options are
    those of the backend; no group of options is required unconditionally any
    more, and the conditional requirements are those of the backend together
    with each former group, required when the state is [present]. *)
Theorem module_argument_spec_requirements (a : ArgumentSpec) :
  (forall k o, module_options !! k = Some o ->
     argument_spec (module_argument_spec a) !! k = Some o)
  /\ (forall k, module_options !! k = None ->
       argument_spec (module_argument_spec a) !! k = argument_spec a !! k)
  /\ required_one_of (module_argument_spec a) = []
  /\ (forall req,
       req ∈ required_if (module_argument_spec a)
       <-> req ∈ required_if a
           \/ exists rof, rof ∈ required_one_of a
                /\ req = ("state", "present", rof, true)).
Proof.
  unfold module_argument_spec, dict_update. simpl. repeat split.
  - intros Hk. by apply lookup_union_Some_l.
  - intros Hk. by apply lookup_union_r.
  - intros [?|Hin]%elem_of_app; [by left|right].
    apply list_elem_of_In, in_map_iff in Hin as (rof & <- & Hrof).
    exists rof. split; [by apply list_elem_of_In|done].
  - intros [?|(rof & Hrof & ->)]; apply elem_of_app; [by left|right].
    apply list_elem_of_In, in_map_iff. exists rof.
    split; [done|by apply list_elem_of_In].
Qed.

(** ** The record and the files of a run *)

Lemma backup_name_nonempty (p s : string) : String.eqb (p +:+ "." +:+ s) "" = false.
Proof. by destruct p. Qed.

Lemma backup_name_ne_sym (p s : string) : p ≠ p +:+ "." +:+ s.
Proof. intros Heq. by apply (backup_name_ne p s). Qed.

Ltac finish_run :=
  events;
  rewrite ?dump_changed, ?dump_backup_file, ?dump_csr, ?dump_summary;
  repeat (progress (simpl; norm_run)).

Ltac inv_run := intros ?; show_concl; simplify_eq; finish_run.

Ltac each_event := apply Forall_forall; by repeat constructor.

(** Looks a path up that is neither the target nor the backup. *)
Ltac other_path :=
  repeat first
    [ rewrite lookup_insert_ne by (done || apply backup_name_ne_sym)
    | rewrite lookup_delete_ne by (done || apply backup_name_ne_sym)
    | rewrite lookup_insert_eq ].

Section Further.
Context {DesiredSpec Artifact : Type} `{!Backend DesiredSpec Artifact}.
Implicit Types (module : AnsibleModule DesiredSpec) (w : World).
Implicit Types (self : CertificateSigningRequestModule DesiredSpec Artifact).

Lemma dump_filename self : dump self !! "filename" = Some (PStr (path self)).
Proof. unfold dump. case_match; by simplify_map_eq. Qed.

(** X1: the record of a successful run names the path it was run for; a run
    that reports no change has left every file as it was; and a run for real
    reports a change exactly when it made a backup, wrote or removed the file
    or changed its attributes. *)
Theorem changed_reports_what_was_done module w r w' :
  main module w = (ExitJson r, w') ->
  r !! "filename" = Some (PStr (p_path (params module)))
  /\ (r !! "changed" = Some (PBool false) -> files w' = files w)
  /\ (check_mode module = false ->
      r !! "changed" = Some (PBool (existsb is_mutation (events_between w w')))).
Proof.
  intros Hmain. explode module w. revert Hmain. hide_concl. sym_exec.
  all: inv_run; rewrite dump_filename; simpl.
  all: (split; [done|]); split; [|done].
  all: by intros [=].
Qed.

(** X2: when a run for real with [backup] on overwrites or removes an
    existing file, the record names the backup, the backup holds the file as
    it was, bytes and attributes, and the run reports a change. *)
Theorem backup_holds_the_original module w f r w' :
  check_mode module = false ->
  p_backup (params module) = true ->
  files w !! p_path (params module) = Some f ->
  p_state (params module) = absent \/ regeneration_due module w = true ->
  main module w = (ExitJson r, w') ->
  r !! "backup_file" = Some (PStr (backup_dest w (p_path (params module))))
  /\ files w' !! backup_dest w (p_path (params module)) = Some f
  /\ r !! "changed" = Some (PBool true).
Proof.
  intros Hcm Hbk Hf Hdue Hmain. unfold backup_dest. explode module w.
  simplify_eq. revert Hmain. hide_concl. revert Hdue. sym_exec.
  all: intros Hdue; try (by destruct Hdue).
  all: inv_run; rewrite ?backup_name_nonempty; simpl.
  all: (split; [done|]); split; [|done].
  all: by other_path.
Qed.

(** X3: the record of a successful run has a [backup_file] only when
    [backup] is on, the run is for real and reports a change; the name is
    then that of a backup which holds the file that was at the path. *)
Theorem backup_file_only_when_backed_up module w r w' v :
  main module w = (ExitJson r, w') ->
  r !! "backup_file" = Some v ->
  p_backup (params module) = true
  /\ check_mode module = false
  /\ r !! "changed" = Some (PBool true)
  /\ v = PStr (backup_dest w (p_path (params module)))
  /\ is_Some (files w !! p_path (params module))
  /\ files w' !! backup_dest w (p_path (params module))
     = files w !! p_path (params module).
Proof.
  intros Hmain. unfold backup_dest. explode module w.
  revert Hmain. hide_concl. sym_exec.
  all: inv_run; rewrite ?backup_name_nonempty; simpl.
  all: intros [=]; subst.
  all: repeat (split; [by eauto|]).
  all: by other_path.
Qed.

(** X4: the record has the content of the CSR only when it was asked for;
    when a run for real that is to make the CSR present is asked for it, the
    content in the record is the content of the file at the path after the
    run, and in check mode it is what was at the path before, if anything. *)
Theorem returned_content_is_file_content module w r w' :
  main module w = (ExitJson r, w') ->
  (p_return_content (params module) = false -> r !! "csr" = None)
  /\ (p_return_content (params module) = true ->
      p_state (params module) = present ->
      check_mode module = false ->
      exists f', files w' !! p_path (params module) = Some f'
        /\ r !! "csr" = Some (PStr (data f')))
  /\ (p_return_content (params module) = true ->
      p_state (params module) = present ->
      check_mode module = true ->
      r !! "csr" = Some (match files w !! p_path (params module) with
                         | Some f => PStr (data f)
                         | None => PNone
                         end)).
Proof.
  intros Hmain. explode module w. revert Hmain. hide_concl. sym_exec.
  all: inv_run; unfold current_bytes; simpl.
  all: repeat split; intros; simplify_eq/=; try done.
  all: eexists; split; reflexivity.
Qed.

(** X5: whatever the run and its outcome, a path that is neither the path of
    the CSR nor the name of its backup holds after the run what it held
    before, and the directories are the same. *)
Theorem other_paths_untouched module w q :
  q <> p_path (params module) ->
  q <> backup_dest w (p_path (params module)) ->
  files (main module w).2 !! q = files w !! q
  /\ dirs (main module w).2 = dirs w.
Proof.
  intros Hp Hb. unfold backup_dest in Hb. explode module w.
  pose proof (not_eq_sym Hp) as Hp'. pose proof (not_eq_sym Hb) as Hb'.
  sym_exec.
  all: simpl; split; [|done].
  all: by repeat first [ rewrite lookup_insert_ne by done
                       | rewrite lookup_delete_ne by done ].
Qed.

(** X6: a run that is to make the CSR absent never asks the backend to
    compare or to generate; a run with [force] never asks it to compare; a
    run in check mode never asks it to generate. *)
Theorem backend_calls module w :
  (p_state (params module) = absent ->
     forall e, e ∈ events_between w (main module w).2 ->
       is_compare e = false /\ is_build e = false)
  /\ (p_force (params module) = true ->
     forall e, e ∈ events_between w (main module w).2 -> is_compare e = false)
  /\ (check_mode module = true ->
     forall e, e ∈ events_between w (main module w).2 -> is_build e = false).
Proof.
  explode module w. split; [|split]; intros Hx; subst.
  - sym_exec. all: finish_run; each_event.
  - sym_exec. all: finish_run; each_event.
  - sym_exec. all: finish_run; each_event.
Qed.

(** X7: a successful run for real that is to make the CSR absent, at a path
    that is no directory, leaves nothing at the path and reports a change
    exactly when there was a file; the same run once more succeeds, reports
    no change and leaves the files as they are. *)
Theorem removal_is_idempotent module w r w' :
  p_state (params module) = absent ->
  check_mode module = false ->
  isdir w (p_path (params module)) = false ->
  main module w = (ExitJson r, w') ->
  files w' !! p_path (params module) = None
  /\ r !! "changed"
     = Some (PBool (bool_decide (is_Some (files w !! p_path (params module)))))
  /\ exists r2 w2,
       main module w' = (ExitJson r2, w2)
       /\ r2 !! "changed" = Some (PBool false)
       /\ files w2 = files w'.
Proof.
  intros Hst Hcm Hdir Hmain. explode module w. simplify_eq.
  revert Hmain. hide_concl. sym_exec.
  all: inv_run.
  all: (split; [done|]); (split; [done|]).
  all: sym_exec.
  all: eexists _, _; (split; [reflexivity|]); by rewrite dump_changed.
Qed.

End Further.

(** ** The further properties on the small backend *)

Lemma changed_reports_what_was_done_witness :
  record_of (main Demo.plain_module Demo.stale_world).1 !! "filename"
    = Some (PStr (p_path (params Demo.plain_module)))
  /\ (record_of (main Demo.plain_module Demo.stale_world).1 !! "changed"
        = Some (PBool false) ->
      files (main Demo.plain_module Demo.stale_world).2 = files Demo.stale_world)
  /\ (check_mode Demo.plain_module = false ->
      record_of (main Demo.plain_module Demo.stale_world).1 !! "changed"
        = Some (PBool (existsb is_mutation
            (events_between Demo.stale_world
               (main Demo.plain_module Demo.stale_world).2)))).
Proof.
  refine (changed_reports_what_was_done Demo.plain_module Demo.stale_world
            (record_of (main Demo.plain_module Demo.stale_world).1)
            (main Demo.plain_module Demo.stale_world).2 _); run_demo.
Defined.

Lemma backup_holds_the_original_witness :
  record_of (main Demo.backup_module Demo.stale_world).1 !! "backup_file"
    = Some (PStr (backup_dest Demo.stale_world (p_path (params Demo.backup_module))))
  /\ files (main Demo.backup_module Demo.stale_world).2
       !! backup_dest Demo.stale_world (p_path (params Demo.backup_module))
     = Some Demo.other_file
  /\ record_of (main Demo.backup_module Demo.stale_world).1 !! "changed"
     = Some (PBool true).
Proof.
  refine (backup_holds_the_original Demo.backup_module Demo.stale_world
            Demo.other_file
            (record_of (main Demo.backup_module Demo.stale_world).1)
            (main Demo.backup_module Demo.stale_world).2 _ _ _ _ _);
    try run_demo.
  right. run_demo.
Defined.

Lemma backup_file_only_when_backed_up_witness :
  p_backup (params Demo.removing_module) = true
  /\ check_mode Demo.removing_module = false
  /\ record_of (main Demo.removing_module Demo.stale_world).1 !! "changed"
     = Some (PBool true)
  /\ PStr "/etc/ssl/csr/www.ansible.com.csr.2019-03-09@11:22~"
     = PStr (backup_dest Demo.stale_world (p_path (params Demo.removing_module)))
  /\ is_Some (files Demo.stale_world !! p_path (params Demo.removing_module))
  /\ files (main Demo.removing_module Demo.stale_world).2
       !! backup_dest Demo.stale_world (p_path (params Demo.removing_module))
     = files Demo.stale_world !! p_path (params Demo.removing_module).
Proof.
  refine (backup_file_only_when_backed_up Demo.removing_module Demo.stale_world
            (record_of (main Demo.removing_module Demo.stale_world).1)
            (main Demo.removing_module Demo.stale_world).2
            (PStr "/etc/ssl/csr/www.ansible.com.csr.2019-03-09@11:22~") _ _);
    run_demo.
Defined.

Lemma returned_content_witness :
  (p_return_content (params Demo.content_module) = false ->
   record_of (main Demo.content_module Demo.stale_world).1 !! "csr" = None)
  /\ (p_return_content (params Demo.content_module) = true ->
      p_state (params Demo.content_module) = present ->
      check_mode Demo.content_module = false ->
      exists f',
        files (main Demo.content_module Demo.stale_world).2
          !! p_path (params Demo.content_module) = Some f'
        /\ record_of (main Demo.content_module Demo.stale_world).1 !! "csr"
           = Some (PStr (data f')))
  /\ (p_return_content (params Demo.content_module) = true ->
      p_state (params Demo.content_module) = present ->
      check_mode Demo.content_module = true ->
      record_of (main Demo.content_module Demo.stale_world).1 !! "csr"
        = Some (match files Demo.stale_world !! p_path (params Demo.content_module) with
                | Some f => PStr (data f)
                | None => PNone
                end)).
Proof.
  refine (returned_content_is_file_content Demo.content_module Demo.stale_world
            (record_of (main Demo.content_module Demo.stale_world).1)
            (main Demo.content_module Demo.stale_world).2 _); run_demo.
Defined.

(** The content in the record is the new CSR, not the stale one. *)
Example returned_content_is_the_new_csr :
  record_of (main Demo.content_module Demo.stale_world).1 !! "csr"
    = Some (PStr "CSR:www.ansible.com").
Proof. run_demo. Qed.

Lemma other_paths_untouched_witness :
  files (main Demo.backup_module Demo.stale_world).2 !! "/etc/ssl/csr/mail.csr"
    = files Demo.stale_world !! "/etc/ssl/csr/mail.csr"
  /\ dirs (main Demo.backup_module Demo.stale_world).2 = dirs Demo.stale_world.
Proof.
  refine (other_paths_untouched Demo.backup_module Demo.stale_world
            "/etc/ssl/csr/mail.csr" _ _); intros Heq; vm_compute in Heq;
    discriminate Heq.
Defined.

Lemma backend_calls_witness :
  Forall (fun e => is_compare e = false /\ is_build e = false)
         (events_between Demo.stale_world
            (main Demo.removing_module Demo.stale_world).2).
Proof.
  apply Forall_forall.
  exact (proj1 (backend_calls Demo.removing_module Demo.stale_world) eq_refl).
Defined.

Lemma removal_is_idempotent_witness :
  files (main Demo.removing_module Demo.stale_world).2
    !! p_path (params Demo.removing_module) = None
  /\ record_of (main Demo.removing_module Demo.stale_world).1 !! "changed"
     = Some (PBool (bool_decide
         (is_Some (files Demo.stale_world !! p_path (params Demo.removing_module)))))
  /\ exists r2 w2,
       main Demo.removing_module (main Demo.removing_module Demo.stale_world).2
         = (ExitJson r2, w2)
       /\ r2 !! "changed" = Some (PBool false)
       /\ files w2 = files (main Demo.removing_module Demo.stale_world).2.
Proof.
  refine (removal_is_idempotent Demo.removing_module Demo.stale_world
            (record_of (main Demo.removing_module Demo.stale_world).1)
            (main Demo.removing_module Demo.stale_world).2 _ _ _ _); run_demo.
Defined.

Lemma base_dir_of_bare_name_witness : base_dir Demo.bare_name_module = ".".
Proof.
  refine (proj2 (base_dir_of_bare_name Demo.bare_name_module) _). run_demo.
Defined.

Lemma base_dir_of_joined_path_witness : base_dir Demo.plain_module = "/etc/ssl/csr".
Proof.
  refine (base_dir_of_joined_path Demo.plain_module
            "/etc/ssl/csr" "www.ansible.com.csr" "r"%char _ _ _ _); run_demo.
Defined.

(** With the argument specification of the demo backend, the key is required
    only when the CSR is to be present. *)
Lemma module_argument_spec_witness :
  ("state", "present", ["privatekey_path"; "privatekey_content"], true)
    ∈ required_if (module_argument_spec Demo.backend_argument_spec)
  /\ required_one_of (module_argument_spec Demo.backend_argument_spec) = [].
Proof.
  destruct (module_argument_spec_requirements Demo.backend_argument_spec)
    as (_ & _ & Hone & Hif).
  split; [|exact Hone].
  apply Hif. right. eexists. split; [|reflexivity]. by left.
Defined.
